(** * libAKMtastic: the calibration and fusion engine of akmtastic.cpp

    A shallow embedding of [src/libs/akmtastic/akmtastic.cpp] and the
    properties of it that the design document states.

    Conventions of the embedding.
    - A C++ [float] is an IEEE-754 binary32 value: [spec_float] with
      precision 24 and maximal exponent 128, every operation rounded to
      nearest-even once (no fused multiply-add, no excess precision).
    - A C++ [int] is a [Z]; the implicit conversion of an [int] to a
      [float] is [F.of_int].
    - A member function that mutates [*this] is a function from the object
      before the call to the object after it; a [Vector &] in-out argument
      is returned as the new value of the argument.
    - Every class of the file is a module, every data member a record
      field, every member function a definition of the same name
      (overloads get a suffix; [fix] is [fix_]).
    - The [AKM_*] wrappers at the end of the file are functions of the
      value of the file-level pointer [self] (module [AKM]). *)

From Stdlib Require Import ZArith Bool List String Lia.
From Stdlib Require Import SpecFloat.
From Stdlib Require Import Reals Lra.
Import ListNotations.

Local Open Scope Z_scope.

(* ================================================================== *)
(** ** binary32 arithmetic *)

Module F.

Definition prec : Z := 24.
Definition emax : Z := 128.

Definition float : Type := spec_float.

(** Conversion of an [int] to [float] (round to nearest-even). *)
Definition of_int (n : Z) : float := binary_normalize prec emax n 0 false.

Definition add : float -> float -> float := SFadd prec emax.
Definition sub : float -> float -> float := SFsub prec emax.
Definition mul : float -> float -> float := SFmul prec emax.
Definition div : float -> float -> float := SFdiv prec emax.
Definition sqrtf : float -> float := SFsqrt prec emax.
Definition fabsf : float -> float := SFabs.

(** [a == b] and [a < b] on floats; [a > b] is [ltb b a]. *)
Definition eqb : float -> float -> bool := SFeqb.
Definition ltb : float -> float -> bool := SFltb.

(** The literals of the file. *)
Definition zero : float := S754_zero false.                 (* 0.0f  *)
Definition one : float := S754_finite false 8388608 (-23).  (* 1.0f  *)
Definition lit_720 : float := S754_finite false 11796480 (-14). (* 720.f *)
Definition lit_0_8 : float := S754_finite false 13421773 (-24). (* 0.8f  *)
Definition lit_0_05 : float := S754_finite false 13421773 (-28). (* 0.05f *)

(** The real number that a finite value stands for (0 for an infinity or
    a NaN, which stand for none).  Used to state properties only. *)
Definition F2R (f : float) : R :=
  match f with
  | S754_finite s m e => (IZR (cond_Zopp s (Zpos m)) * powerRZ 2 e)%R
  | _ => 0%R
  end.

(** Classes of values, used to state properties only: a NaN or an
    infinity; a zero of either sign or a NaN; a NaN or a value whose sign
    bit is clear (+0, a positive finite value, +infinity). *)
Definition is_nonfinite (f : float) : bool :=
  match f with
  | S754_infinity _ | S754_nan => true
  | _ => false
  end.

Definition is_zero_or_nan (f : float) : bool :=
  match f with
  | S754_zero _ | S754_nan => true
  | _ => false
  end.

Definition is_nan_or_unsigned (f : float) : bool :=
  match f with
  | S754_nan => true
  | S754_zero s | S754_infinity s | S754_finite s _ _ => negb s
  end.

End F.

(* ================================================================== *)
(** ** class Vector *)

Module Vector.

(** [float v[3]], read through [x()], [y()], [z()]. *)
Record t : Type := mk { x : F.float; y : F.float; z : F.float }.

(** [Vector()] *)
Definition new : t := mk F.zero F.zero F.zero.

(** [void set(float x, float y, float z)] *)
Definition set (_ : t) (x0 y0 z0 : F.float) : t := mk x0 y0 z0.

(** [Vector(float x, float y, float z)] *)
Definition new3 (x0 y0 z0 : F.float) : t := set new x0 y0 z0.

(** [void multiply(const Vector &m)] *)
Definition multiply (v m : t) : t :=
  mk (F.mul (x v) (x m)) (F.mul (y v) (y m)) (F.mul (z v) (z m)).

(** [void multiply(float m)] *)
Definition multiply_f (v : t) (m : F.float) : t :=
  mk (F.mul (x v) m) (F.mul (y v) m) (F.mul (z v) m).

(** [void divide(float d)] *)
Definition divide (v : t) (d : F.float) : t :=
  mk (F.div (x v) d) (F.div (y v) d) (F.div (z v) d).

(** [void add(const Vector &m)] *)
Definition add (v m : t) : t :=
  mk (F.add (x v) (x m)) (F.add (y v) (y m)) (F.add (z v) (z m)).

(** [static Vector multiply(const Vector &a, const Vector &b)] *)
Definition multiply_static (a b : t) : t :=
  let res := a in multiply res b.

(** [static Vector multiply(const Vector &a, float b)] *)
Definition multiply_static_f (a : t) (b : F.float) : t :=
  let res := a in multiply_f res b.

(** [static Vector divide(const Vector &a, float b)] *)
Definition divide_static (a : t) (b : F.float) : t :=
  let res := a in divide res b.

(** [float length(void) const] *)
Definition length (v : t) : F.float :=
  F.sqrtf (F.add (F.add (F.mul (x v) (x v)) (F.mul (y v) (y v)))
                 (F.mul (z v) (z v))).

(** [float dot(const Vector &o) const] *)
Definition dot (v o : t) : F.float :=
  F.add (F.add (F.mul (x v) (x o)) (F.mul (y v) (y o)))
        (F.mul (z v) (z o)).

End Vector.

(* ================================================================== *)
(** ** class Average *)

Module Average.

(** The class has no data member. *)
Inductive t : Type := mk.

(** [const Vector &push(const Vector &v)] *)
Definition push (_ : t) (v : Vector.t) : Vector.t := v.

End Average.

(* ================================================================== *)
(** ** class Calibrator *)

Module Calibrator.

Record t : Type := mk { scale : Vector.t; translation : Vector.t }.

(** [Calibrator()]: the body is empty, both members are built by
    [Vector()]. *)
Definition new : t := mk Vector.new Vector.new.

(** [virtual void push(const Vector &val)]: empty body. *)
Definition push (c : t) (val : Vector.t) : t := c.

(** [virtual void fix(Vector &val)]: the calibrator is not changed, the
    result is the new value of [val]. *)
Definition fix_ (c : t) (val : Vector.t) : Vector.t :=
  let val := Vector.add val (translation c) in
  Vector.multiply val (scale c).

(** [virtual void reset(void)]: empty body. *)
Definition reset (c : t) : t := c.

End Calibrator.

(* ================================================================== *)
(** ** class AccCalibrator : public Calibrator *)

Module AccCalibrator.

Definition REFRESH : Z := 10.
Definition ERROR : F.float := F.lit_0_05.
Definition GRAVITY_SMOOTH : F.float := F.lit_0_8.

(** The base-class subobject and the member [g]. *)
Record t : Type := mk { base : Calibrator.t; g : Vector.t }.

(** [AccCalibrator() : g()] *)
Definition new : t := mk Calibrator.new Vector.new.

(** [virtual void push(const Vector &val)].

    The second component of the result is the list of the arguments with
    which the body called [Calibrator::push], in call order: the base
    class keeps no accumulator, so these calls are the only trace of a
    sample being handed over to the fit. *)
Definition push (c : t) (val : Vector.t) : t * list Vector.t :=
  let c := mk (base c) (Vector.multiply_f (g c) GRAVITY_SMOOTH) in
  let c := mk (base c)
              (Vector.add (g c)
                 (Vector.multiply_static_f val (F.sub F.one GRAVITY_SMOOTH))) in
  let al := Vector.length val in
  let gl := Vector.length (g c) in
  if F.eqb al (F.of_int 0) || F.eqb gl (F.of_int 0) then (c, [])
  else
    let an := Vector.divide_static val al in
    let gn := Vector.divide_static (g c) gl in
    if F.ltb (F.fabsf (F.sub al gl)) ERROR
       && F.ltb (F.sub F.one ERROR) (Vector.dot an gn)
    then (mk (Calibrator.push (base c) (g c)) (g c), [g c])
    else (c, []).

(** [virtual void fix(Vector &val)] *)
Definition fix_ (c : t) (val : Vector.t) : Vector.t :=
  Calibrator.fix_ (base c) val.

(** [virtual void reset(void)] *)
Definition reset (c : t) : t :=
  let c := mk (base c) (Vector.set (g c) F.zero F.zero F.zero) in
  mk (Calibrator.reset (base c)) (g c).

End AccCalibrator.

(* ================================================================== *)
(** ** class MagCalibrator : public Calibrator *)

Module MagCalibrator.

Record t : Type := mk { base : Calibrator.t }.

(** [MagCalibrator()] *)
Definition new : t := mk Calibrator.new.

(** [virtual void push(const Vector &val)]: empty body. *)
Definition push (c : t) (val : Vector.t) : t := c.

(** [virtual void fix(Vector &val)]: empty body, [val] is left as it
    is. *)
Definition fix_ (c : t) (val : Vector.t) : Vector.t := val.

(** [virtual void reset(void)] *)
Definition reset (c : t) : t := mk (Calibrator.reset (base c)).

End MagCalibrator.

(* ================================================================== *)
(** ** class Akmtastic *)

Module Akmtastic.

Record t : Type := mk {
  accCalibrator : AccCalibrator.t;
  accAverage : Average.t;
  accVal : Vector.t;
  magCalibrator : MagCalibrator.t;
  magAverage : Average.t;
  magVal : Vector.t;
  oriVal : Vector.t;          (* mutable *)
  oriCalculated : bool;       (* mutable *)
  started : bool;
  fd : Z
}.

(** [Akmtastic(int maxFormNumber, const register_map_ak897x *regs,
    const int16_t magLayout[3][3])].

    The three arguments are not used.  The initializer list names
    [accCalibrator], [magCalibrator], [started] and [fd]; the vectors
    and averages are built by their default constructors; the [bool]
    member [oriCalculated] is not initialized at all, so its first value
    is whatever the caller of the model says it is. *)
Definition new (indeterminate : bool) : t :=
  mk AccCalibrator.new Average.mk Vector.new
     MagCalibrator.new Average.mk Vector.new
     Vector.new indeterminate
     false (-1).

Definition set_started (s : t) (b : bool) : t :=
  mk (accCalibrator s) (accAverage s) (accVal s)
     (magCalibrator s) (magAverage s) (magVal s)
     (oriVal s) (oriCalculated s) b (fd s).

Definition set_oriCalculated (s : t) (b : bool) : t :=
  mk (accCalibrator s) (accAverage s) (accVal s)
     (magCalibrator s) (magAverage s) (magVal s)
     (oriVal s) b (started s) (fd s).

Definition set_accVal (s : t) (v : Vector.t) : t :=
  mk (accCalibrator s) (accAverage s) v
     (magCalibrator s) (magAverage s) (magVal s)
     (oriVal s) (oriCalculated s) (started s) (fd s).

Definition set_magVal (s : t) (v : Vector.t) : t :=
  mk (accCalibrator s) (accAverage s) (accVal s)
     (magCalibrator s) (magAverage s) v
     (oriVal s) (oriCalculated s) (started s) (fd s).

Definition set_accCalibrator (s : t) (c : AccCalibrator.t) : t :=
  mk c (accAverage s) (accVal s)
     (magCalibrator s) (magAverage s) (magVal s)
     (oriVal s) (oriCalculated s) (started s) (fd s).

Definition set_magCalibrator (s : t) (c : MagCalibrator.t) : t :=
  mk (accCalibrator s) (accAverage s) (accVal s)
     c (magAverage s) (magVal s)
     (oriVal s) (oriCalculated s) (started s) (fd s).

(** [int start(const char *path)] *)
Definition start (s : t) (path : string) : t * Z :=
  if started s then (s, -1)
  else
    let s := set_started s true in
    (s, 0).

(** [int stop(void)] *)
Definition stop (s : t) : t * Z :=
  if negb (started s) then (s, -1)
  else
    let s := set_started s false in
    (s, 0).

(** [int pushAcceleration(int x, int y, int z, int sensitivity)] *)
Definition pushAcceleration (s : t) (x y z sensitivity : Z) : t * Z :=
  let s := set_accVal s (Vector.new3 (F.of_int x) (F.of_int y) (F.of_int z)) in
  let s := set_accVal s
             (Vector.multiply_f (accVal s)
                (F.div F.lit_720 (F.of_int sensitivity))) in
  let s := set_accVal s (Average.push (accAverage s) (accVal s)) in
  let s := set_accCalibrator s
             (fst (AccCalibrator.push (accCalibrator s) (accVal s))) in
  let s := set_accVal s (AccCalibrator.fix_ (accCalibrator s) (accVal s)) in
  let s := set_oriCalculated s false in
  (s, 0).

(** [int pushMagnetic(int x, int y, int z, int status, const int period)] *)
Definition pushMagnetic (s : t) (x y z status period : Z) : t * Z :=
  let s := set_magVal s (Vector.new3 (F.of_int x) (F.of_int y) (F.of_int z)) in
  let s := set_magVal s (Average.push (magAverage s) (magVal s)) in
  let s := set_magCalibrator s
             (MagCalibrator.push (magCalibrator s) (magVal s)) in
  let s := set_magVal s (MagCalibrator.fix_ (magCalibrator s) (magVal s)) in
  let s := set_oriCalculated s false in
  (s, 0).

(** [const Vector &getOrientation(void) const] *)
Definition getOrientation (s : t) : t * Vector.t :=
  let s := if negb (oriCalculated s) then set_oriCalculated s true else s in
  (s, oriVal s).

(** [const Vector &getMagnetic(void) const] *)
Definition getMagnetic (s : t) : Vector.t := magVal s.

(** [unsigned int getCalibrationGoodness(void)] *)
Definition getCalibrationGoodness (s : t) : Z := 0.

(** [void recalibrate(void)] *)
Definition recalibrate (s : t) : t :=
  set_accCalibrator s (AccCalibrator.reset (accCalibrator s)).

(** [int changeFormFactor(int formFactor)] *)
Definition changeFormFactor (s : t) (formFactor : Z) : Z := 0.

(** *** Sequences of calls on one engine *)

Inductive call : Type :=
| Start (path : string)
| Stop
| PushAcceleration (x y z sensitivity : Z)
| PushMagnetic (x y z status period : Z)
| GetOrientation
| GetMagnetic
| GetCalibrationGoodness
| Recalibrate
| ChangeFormFactor (formFactor : Z).

Inductive result : Type :=
| RetInt (n : Z)
| RetVector (v : Vector.t)
| RetVoid.

Definition exec (s : t) (c : call) : t * result :=
  match c with
  | Start path => let (s', r) := start s path in (s', RetInt r)
  | Stop => let (s', r) := stop s in (s', RetInt r)
  | PushAcceleration x y z sensitivity =>
      let (s', r) := pushAcceleration s x y z sensitivity in (s', RetInt r)
  | PushMagnetic x y z status period =>
      let (s', r) := pushMagnetic s x y z status period in (s', RetInt r)
  | GetOrientation => let (s', v) := getOrientation s in (s', RetVector v)
  | GetMagnetic => (s, RetVector (getMagnetic s))
  | GetCalibrationGoodness => (s, RetInt (getCalibrationGoodness s))
  | Recalibrate => (recalibrate s, RetVoid)
  | ChangeFormFactor formFactor => (s, RetInt (changeFormFactor s formFactor))
  end.

(** The engine after a sequence of calls, and what each call returned. *)
Fixpoint run (s : t) (cs : list call) : t * list result :=
  match cs with
  | [] => (s, [])
  | c :: cs' =>
      let (s1, r) := exec s c in
      let (s2, rs) := run s1 cs' in
      (s2, r :: rs)
  end.

(** The calls that push a sample. *)
Definition is_push (c : call) : bool :=
  match c with
  | PushAcceleration _ _ _ _ | PushMagnetic _ _ _ _ _ => true
  | _ => false
  end.

(** [~Akmtastic(void)]: the engine as the destructor leaves it. *)
Definition destructor (s : t) : t :=
  if started s then fst (stop s) else s.

(** The calls that write the magnetic side of the engine, the calls
    that write its accelerometer side, and the calls that write
    [started]. *)
Definition is_PushMagnetic (c : call) : bool :=
  match c with
  | PushMagnetic _ _ _ _ _ => true
  | _ => false
  end.

Definition is_acc_call (c : call) : bool :=
  match c with
  | PushAcceleration _ _ _ _ | Recalibrate => true
  | _ => false
  end.

Definition is_lifecycle_call (c : call) : bool :=
  match c with
  | Start _ | Stop => true
  | _ => false
  end.

Definition is_Recalibrate (c : call) : bool :=
  match c with
  | Recalibrate => true
  | _ => false
  end.

End Akmtastic.

(* ================================================================== *)
(** ** SEMC_API wrappers

    The C functions at the end of the file, over the one engine that the
    file-level pointer [self] holds.  The pointer is an [option]: [None]
    is the null pointer.  Every wrapper takes the value of [self] before
    the call and returns its value after it.

    [sensors_event_t] is declared in [SEMC_APIs.h], which is not part of
    the sources: the two wrappers that write through [data] return, next
    to their code, the three floats they store (in the order of the
    stores), or [None] when they store nothing. *)

Module AKM.

Definition self_t : Type := option Akmtastic.t.

(** [static Akmtastic *self = NULL;] *)
Definition self_init : self_t := None.

(** [int AKM_Init(int maxFormNumber, const register_map_ak897x *regs,
    const int16_t mag_layout[3][3])].  The previous engine, if any, is
    neither destroyed nor kept. *)
Definition AKM_Init (self : self_t) (indeterminate : bool) : self_t * Z :=
  let self := Some (Akmtastic.new indeterminate) in
  match self with
  | None => (self, -1)
  | Some _ => (self, 0)
  end.

(** [void AKM_Release(void)]: [delete self] runs the destructor on the
    engine, if there is one, and frees it. *)
Definition AKM_Release (self : self_t) : self_t :=
  let _ := option_map Akmtastic.destructor self in
  None.

(** [int AKM_Start(const char *path)] *)
Definition AKM_Start (self : self_t) (path : string) : self_t * Z :=
  match self with
  | None => (self, -1)
  | Some e => let (e', r) := Akmtastic.start e path in (Some e', r)
  end.

(** [int AKM_Stop(const char *path)] *)
Definition AKM_Stop (self : self_t) (path : string) : self_t * Z :=
  match self with
  | None => (self, -1)
  | Some e => let (e', r) := Akmtastic.stop e in (Some e', r)
  end.

(** [int AKM_SaveAcc(int acc_x, int acc_y, int acc_z, int acc_sensitivity)] *)
Definition AKM_SaveAcc (self : self_t) (acc_x acc_y acc_z acc_sensitivity : Z)
  : self_t * Z :=
  match self with
  | None => (self, -1)
  | Some e =>
      (Some (fst (Akmtastic.pushAcceleration e acc_x acc_y acc_z acc_sensitivity)),
       0)
  end.

(** [int AKM_SaveMag(int mag_x, int mag_y, int mag_z, int mag_status,
    const int period)] *)
Definition AKM_SaveMag (self : self_t) (mag_x mag_y mag_z mag_status period : Z)
  : self_t * Z :=
  match self with
  | None => (self, -1)
  | Some e =>
      (Some (fst (Akmtastic.pushMagnetic e mag_x mag_y mag_z mag_status period)),
       0)
  end.

(** [int AKM_GetOrientationValues(sensors_event_t *data)]: the stores
    are to [data->orientation.azimuth], [.pitch] and [.roll]. *)
Definition AKM_GetOrientationValues (self : self_t)
  : self_t * Z * option (F.float * F.float * F.float) :=
  match self with
  | None => (self, -1, None)
  | Some e =>
      let (e', val) := Akmtastic.getOrientation e in
      (Some e', 0, Some (Vector.x val, Vector.y val, Vector.z val))
  end.

(** [int AKM_GetMagneticValues(sensors_event_t *data)]: the stores are
    to [data->magnetic.x], [.y] and [.z]. *)
Definition AKM_GetMagneticValues (self : self_t)
  : self_t * Z * option (F.float * F.float * F.float) :=
  match self with
  | None => (self, -1, None)
  | Some e =>
      let val := Akmtastic.getMagnetic e in
      (self, 0, Some (Vector.x val, Vector.y val, Vector.z val))
  end.

(** [unsigned int AKM_GetCalibrationGoodness(void)] *)
Definition AKM_GetCalibrationGoodness (self : self_t) : Z :=
  match self with
  | None => 0
  | Some e => Akmtastic.getCalibrationGoodness e
  end.

(** [void AKM_ForceReCalibration(void)] *)
Definition AKM_ForceReCalibration (self : self_t) : self_t :=
  match self with
  | Some e => Some (Akmtastic.recalibrate e)
  | None => self
  end.

(** [int AKM_ChangeFormFactor(int formFactorNumber)] *)
Definition AKM_ChangeFormFactor (self : self_t) (formFactorNumber : Z) : Z :=
  match self with
  | None => -1
  | Some e => Akmtastic.changeFormFactor e formFactorNumber
  end.

(** *** Sequences of calls of the wrappers *)

Inductive call : Type :=
| Init (indeterminate : bool)
| Release
| Start (path : string)
| Stop (path : string)
| SaveAcc (acc_x acc_y acc_z acc_sensitivity : Z)
| SaveMag (mag_x mag_y mag_z mag_status period : Z)
| GetOrientationValues
| GetMagneticValues
| GetCalibrationGoodness
| ForceReCalibration
| ChangeFormFactor (formFactorNumber : Z).

(** What a call gives back: its return value and, for the two getters
    with a [data] argument, the three floats stored. *)
Inductive result : Type :=
| RetInt (n : Z)
| RetData (n : Z) (stored : option (F.float * F.float * F.float))
| RetVoid.

Definition exec (self : self_t) (c : call) : self_t * result :=
  match c with
  | Init indeterminate =>
      let (self', r) := AKM_Init self indeterminate in (self', RetInt r)
  | Release => (AKM_Release self, RetVoid)
  | Start path => let (self', r) := AKM_Start self path in (self', RetInt r)
  | Stop path => let (self', r) := AKM_Stop self path in (self', RetInt r)
  | SaveAcc x y z sensitivity =>
      let (self', r) := AKM_SaveAcc self x y z sensitivity in (self', RetInt r)
  | SaveMag x y z status period =>
      let (self', r) := AKM_SaveMag self x y z status period in (self', RetInt r)
  | GetOrientationValues =>
      let '(self', r, stored) := AKM_GetOrientationValues self in
      (self', RetData r stored)
  | GetMagneticValues =>
      let '(self', r, stored) := AKM_GetMagneticValues self in
      (self', RetData r stored)
  | GetCalibrationGoodness => (self, RetInt (AKM_GetCalibrationGoodness self))
  | ForceReCalibration => (AKM_ForceReCalibration self, RetVoid)
  | ChangeFormFactor n => (self, RetInt (AKM_ChangeFormFactor self n))
  end.

Fixpoint run (self : self_t) (cs : list call) : self_t * list result :=
  match cs with
  | [] => (self, [])
  | c :: cs' =>
      let (self1, r) := exec self c in
      let (self2, rs) := run self1 cs' in
      (self2, r :: rs)
  end.

(** What a call gives back when [self] is null ([AKM_Init] apart). *)
Definition null_result (c : call) : result :=
  match c with
  | Release | ForceReCalibration => RetVoid
  | GetOrientationValues | GetMagneticValues => RetData (-1) None
  | GetCalibrationGoodness => RetInt 0
  | _ => RetInt (-1)
  end.

Definition is_Init (c : call) : bool :=
  match c with
  | Init _ => true
  | _ => false
  end.

(** The calls that leave the engine in place and do not write its
    magnetic vector. *)
Definition keeps_magnetic (c : call) : bool :=
  match c with
  | Init _ | Release | SaveMag _ _ _ _ _ => false
  | _ => true
  end.

End AKM.

(* ================================================================== *)
(** ** The orientation of the design document

    The source has no orientation computation; what the design document
    asks of [getOrientation] is written here over the real numbers, to be
    compared with what the member function returns.  The document names
    the two-argument arctangent and a rotation of the magnetic vector
    into the horizontal plane without fixing either (the value at the
    origin, the rotation convention), and a near-zero magnitude without
    giving the bound: the three are parameters.  An infinity or a NaN
    stands for no real number and is read as 0 by [F.F2R], so a vector
    of NaNs counts as one of magnitude zero. *)

Module OrientationSpec.

Local Open Scope R_scope.

Record RVector : Type := mkR { rx : R; ry : R; rz : R }.

Definition of_Vector (v : Vector.t) : RVector :=
  mkR (F.F2R (Vector.x v)) (F.F2R (Vector.y v)) (F.F2R (Vector.z v)).

Definition magnitude (v : RVector) : R :=
  sqrt (rx v * rx v + ry v * ry v + rz v * rz v).

Definition degrees (rad : R) : R := rad * 180 / PI.

(** A heading in (-180, 180] brought to [0, 360). *)
Definition normalize360 (deg : R) : R :=
  if Rlt_dec deg 0 then deg + 360 else deg.

Section Formulas.

(** The two-argument arctangent, in radians. *)
Variable atan2 : R -> R -> R.

(** The x and y components of the magnetic vector turned into the
    horizontal plane by a pitch and a roll. *)
Variable horizontal : R -> R -> RVector -> R * R.

(** The magnitude up to which the acceleration vector is near zero. *)
Variable eps : R.

(** [pitch = atan2(-accel.x, sqrt(accel.y^2 + accel.z^2))] *)
Definition pitch_rad (accel : RVector) : R :=
  atan2 (- rx accel) (sqrt (ry accel * ry accel + rz accel * rz accel)).

(** [roll = atan2(accel.y, accel.z)] *)
Definition roll_rad (accel : RVector) : R :=
  atan2 (ry accel) (rz accel).

(** [azimuth = atan2(mag_horizontal.y, mag_horizontal.x)], in [0, 360). *)
Definition azimuth (accel mag : RVector) : R :=
  let h := horizontal (pitch_rad accel) (roll_rad accel) mag in
  normalize360 (degrees (atan2 (snd h) (fst h))).

(** The vector (azimuth, pitch, roll), in degrees. *)
Definition computed (accel mag : RVector) : RVector :=
  mkR (azimuth accel mag)
      (degrees (pitch_rad accel))
      (degrees (roll_rad accel)).

(** What [getOrientation] is to return: the computed vector, or, when
    the corrected acceleration vector has near-zero magnitude, the last
    cached orientation. *)
Definition orientation_or_cached (cached accel mag : RVector) : RVector :=
  if Rle_dec (magnitude accel) eps then cached else computed accel mag.

End Formulas.

End OrientationSpec.

(* ================================================================== *)
(** ** The trust decision in the words of the design document *)

Module TrustSpec.

(** [g*0.8 + val*0.2]: the gravity estimate after the update. *)
Definition smoothed (c : AccCalibrator.t) (val : Vector.t) : Vector.t :=
  Vector.add
    (Vector.multiply_f (AccCalibrator.g c) AccCalibrator.GRAVITY_SMOOTH)
    (Vector.multiply_f val (F.sub F.one AccCalibrator.GRAVITY_SMOOTH)).

(** Neither length is zero, the lengths agree within 0.05 and the unit
    vectors have a dot product above 0.95. *)
Definition trusted (c : AccCalibrator.t) (val : Vector.t) : bool :=
  let g' := smoothed c val in
  let al := Vector.length val in
  let gl := Vector.length g' in
  negb (F.eqb al F.zero || F.eqb gl F.zero)
  && F.ltb (F.fabsf (F.sub al gl)) AccCalibrator.ERROR
  && F.ltb (F.sub F.one AccCalibrator.ERROR)
           (Vector.dot (Vector.divide val al) (Vector.divide g' gl)).

End TrustSpec.

(* ================================================================== *)
(** ** Sample vectors used in the examples *)

(** (1, 2, 3), built from [int]s as [Vector(1, 2, 3)]. *)
Definition v123 : Vector.t :=
  Vector.new3 (F.of_int 1) (F.of_int 2) (F.of_int 3).

(** (0, 0, 0) and (0, 0, 1). *)
Definition v000 : Vector.t :=
  Vector.new3 (F.of_int 0) (F.of_int 0) (F.of_int 0).
Definition v001 : Vector.t :=
  Vector.new3 (F.of_int 0) (F.of_int 0) (F.of_int 1).

(** (0, 0, 0.01): the raw sample (0, 0, 1) at sensitivity 72000, as
    [pushAcceleration] converts it. *)
Definition v00c : Vector.t :=
  Vector.multiply_f v001 (F.div F.lit_720 (F.of_int 72000)).

(** An accelerometer calibrator whose gravity estimate is
    (+infinity, 0, 0). *)
Definition acc_inf : AccCalibrator.t :=
  AccCalibrator.mk Calibrator.new
    (Vector.mk (S754_infinity false) F.zero F.zero).

(* ================================================================== *)
(** * Properties *)

Import Akmtastic.

(** ** The literals *)

(** Each literal is the decimal it is written as, rounded once to
    binary32: an integer converted, or the correctly rounded quotient of
    two integers. *)
Lemma literals_are_roundings :
  F.zero = F.of_int 0 /\
  F.one = F.of_int 1 /\
  F.lit_720 = F.of_int 720 /\
  F.lit_0_8 = F.div (F.of_int 8) (F.of_int 10) /\
  F.lit_0_05 = F.div (F.of_int 5) (F.of_int 100).
Proof. repeat split; vm_compute; reflexivity. Qed.

(** ** C10: Average *)

(** C10. [Average::push] returns its argument, whatever the argument is;
    hence the vector that [pushAcceleration] hands to the accelerometer
    calibrator is the raw sample times [720.f / sensitivity], and the one
    that [pushMagnetic] hands to the magnetometer calibrator is the raw
    sample, neither of them smoothed. *)
Theorem Average_push_identity
  (a : Average.t) (v : Vector.t) (s : t) (x y z sensitivity status period : Z) :
  Average.push a v = v /\
  accCalibrator (fst (pushAcceleration s x y z sensitivity)) =
    fst (AccCalibrator.push (accCalibrator s)
           (Vector.multiply_f
              (Vector.mk (F.of_int x) (F.of_int y) (F.of_int z))
              (F.div F.lit_720 (F.of_int sensitivity)))) /\
  magCalibrator (fst (pushMagnetic s x y z status period)) =
    MagCalibrator.push (magCalibrator s)
      (Vector.mk (F.of_int x) (F.of_int y) (F.of_int z)).
Proof. repeat split. Qed.

(** ** C3, C4, C6: the calibrators *)

(** C3 (the code at the failing input).  A calibrator is built with
    translation (0, 0, 0) and with scale (0, 0, 0), not (1, 1, 1): the
    correction of a new accelerometer calibrator sends (1, 2, 3) to
    (0, 0, 0), and so does the engine with the first sample it is
    given, [pushAcceleration(1, 2, 3, 720)].  The magnetometer
    calibrator, whose [fix] is empty, returns (1, 2, 3). *)
Theorem Calibrator_new_scale_zero (indeterminate : bool) :
  Calibrator.translation Calibrator.new = Vector.mk F.zero F.zero F.zero /\
  Calibrator.scale Calibrator.new = Vector.mk F.zero F.zero F.zero /\
  Calibrator.fix_ Calibrator.new v123 = Vector.mk F.zero F.zero F.zero /\
  AccCalibrator.fix_ AccCalibrator.new v123 = Vector.mk F.zero F.zero F.zero /\
  accVal (fst (pushAcceleration (new indeterminate) 1 2 3 720)) =
    Vector.mk F.zero F.zero F.zero /\
  v123 <> Vector.mk F.zero F.zero F.zero /\
  MagCalibrator.fix_ MagCalibrator.new v123 = v123.
Proof.
  repeat split; try (vm_compute; reflexivity).
  intro H. vm_compute in H. discriminate H.
Qed.

(** C4 fails as stated: on a new magnetometer calibrator, whose
    translation and scale are (0, 0, 0), [fix] leaves (1, 2, 3) as it is,
    and (val + translation) * scale is (0, 0, 0). *)
Lemma MagCalibrator_fix_not_affine :
  ~ (forall (c : MagCalibrator.t) (val : Vector.t),
       MagCalibrator.fix_ c val =
       Vector.multiply
         (Vector.add val (Calibrator.translation (MagCalibrator.base c)))
         (Calibrator.scale (MagCalibrator.base c))).
Proof.
  intro H. specialize (H MagCalibrator.new v123).
  vm_compute in H. discriminate H.
Qed.

(** C4 (amended).  [MagCalibrator::fix] leaves [val] as it is, whatever
    the translation and scale of the calibrator; the elementwise
    (val + translation) * scale is what the accelerometer calibrator's
    [fix] computes. *)
Theorem MagCalibrator_fix_identity
  (c : MagCalibrator.t) (a : AccCalibrator.t) (val : Vector.t) :
  MagCalibrator.fix_ c val = val /\
  AccCalibrator.fix_ a val =
    Vector.multiply
      (Vector.add val (Calibrator.translation (AccCalibrator.base a)))
      (Calibrator.scale (AccCalibrator.base a)) /\
  let tr := Calibrator.translation (AccCalibrator.base a) in
  let sc := Calibrator.scale (AccCalibrator.base a) in
  AccCalibrator.fix_ a val =
    Vector.mk (F.mul (F.add (Vector.x val) (Vector.x tr)) (Vector.x sc))
              (F.mul (F.add (Vector.y val) (Vector.y tr)) (Vector.y sc))
              (F.mul (F.add (Vector.z val) (Vector.z tr)) (Vector.z sc)).
Proof. repeat split. Qed.

(** C6. [AccCalibrator::reset] puts [g] back to (0, 0, 0) and touches
    nothing else: the calibrator after it is the one built from the same
    translation and scale with the state of a new one, and [fix] gives
    the same result after the reset as before it. *)
Theorem AccCalibrator_reset_keeps_correction
  (c : AccCalibrator.t) (v : Vector.t) :
  AccCalibrator.g (AccCalibrator.reset c) = Vector.mk F.zero F.zero F.zero /\
  AccCalibrator.g (AccCalibrator.reset c) = AccCalibrator.g AccCalibrator.new /\
  Calibrator.translation (AccCalibrator.base (AccCalibrator.reset c)) =
    Calibrator.translation (AccCalibrator.base c) /\
  Calibrator.scale (AccCalibrator.base (AccCalibrator.reset c)) =
    Calibrator.scale (AccCalibrator.base c) /\
  AccCalibrator.reset c = AccCalibrator.mk (AccCalibrator.base c) Vector.new /\
  AccCalibrator.fix_ (AccCalibrator.reset c) v = AccCalibrator.fix_ c v.
Proof. repeat split. Qed.

(** ** C1: AccCalibrator::push *)

(** The constants of [AccCalibrator] against the decimals they are
    written as: 0.8f and 0.05f are within half a unit in the last place of
    0.8 and 0.05; the weight of the sample, [1.0f - GRAVITY_SMOOTH], is
    computed in binary32 and is the value just below the binary32 nearest
    to 0.2; the direction bound [1.0f - ERROR] is the binary32 nearest
    to 0.95. *)
Lemma AccCalibrator_constants :
  (Rabs (F.F2R AccCalibrator.GRAVITY_SMOOTH - 8 / 10) < 1 / 16777216)%R /\
  (Rabs (F.F2R (F.sub F.one AccCalibrator.GRAVITY_SMOOTH) - 2 / 10) < 1 / 16777216)%R /\
  (Rabs (F.F2R AccCalibrator.ERROR - 5 / 100) < 1 / 268435456)%R /\
  F.sub F.one AccCalibrator.GRAVITY_SMOOTH = S754_finite false 13421772 (-26) /\
  F.div (F.of_int 2) (F.of_int 10) = S754_finite false 13421773 (-26) /\
  F.sub F.one AccCalibrator.ERROR = F.div (F.of_int 95) (F.of_int 100).
Proof.
  assert (E : F.sub F.one AccCalibrator.GRAVITY_SMOOTH
              = S754_finite false 13421772 (-26)) by (vm_compute; reflexivity).
  repeat split; try (vm_compute; reflexivity).
  - unfold AccCalibrator.GRAVITY_SMOOTH, F.lit_0_8, F.F2R. cbn [cond_Zopp].
    unfold powerRZ. simpl Pos.to_nat. simpl pow.
    apply Rabs_def1; lra.
  - rewrite E. unfold F.F2R. cbn [cond_Zopp].
    unfold powerRZ. simpl Pos.to_nat. simpl pow.
    apply Rabs_def1; lra.
  - unfold AccCalibrator.ERROR, F.lit_0_05, F.F2R. cbn [cond_Zopp].
    unfold powerRZ. simpl Pos.to_nat. simpl pow.
    apply Rabs_def1; lra.
Qed.

(** C1 (amended). For every calibrator [c] and sample [val], with
    [g' = g*0.8f + val*(1.0f - 0.8f)], [al = |val|] and [gl = |g'|]:
    after [push] the gravity estimate is [g'] and translation and scale
    are as before, whatever the trust decision, since [Calibrator::push]
    has an empty body and there is no accumulator; when [al == 0] or
    [gl == 0] [Calibrator::push] is not called; [Calibrator::push] is
    called, once and with [g'] (not with [val]), exactly when neither
    length is zero, [fabsf(al - gl) < 0.05f] and
    [(val/al).(g'/gl) > 1.0f - 0.05f]; in every other case it is not
    called. *)
Theorem AccCalibrator_push_trust (c : AccCalibrator.t) (val : Vector.t) :
  let g' :=
    Vector.add (Vector.multiply_f (AccCalibrator.g c) AccCalibrator.GRAVITY_SMOOTH)
               (Vector.multiply_f val (F.sub F.one AccCalibrator.GRAVITY_SMOOTH)) in
  let al := Vector.length val in
  let gl := Vector.length g' in
  let an := Vector.divide val al in
  let gn := Vector.divide g' gl in
  let c' := fst (AccCalibrator.push c val) in
  let handed := snd (AccCalibrator.push c val) in
  AccCalibrator.g c' = g' /\
  AccCalibrator.base c' = AccCalibrator.base c /\
  (F.eqb al F.zero = true \/ F.eqb gl F.zero = true -> handed = []) /\
  (handed = [g'] <->
     F.eqb al F.zero = false /\ F.eqb gl F.zero = false /\
     F.ltb (F.fabsf (F.sub al gl)) AccCalibrator.ERROR = true /\
     F.ltb (F.sub F.one AccCalibrator.ERROR) (Vector.dot an gn) = true) /\
  (handed = [g'] \/ handed = []).
Proof.
  cbv zeta. unfold AccCalibrator.push. cbv zeta.
  unfold Vector.multiply_static_f, Vector.divide_static, Calibrator.push.
  cbn [AccCalibrator.g AccCalibrator.base].
  change (F.of_int 0) with F.zero.
  set (g' := Vector.add _ _).
  set (al := Vector.length val).
  set (gl := Vector.length g').
  destruct (F.eqb al F.zero) eqn:Ea; cbn [orb];
    [| destruct (F.eqb gl F.zero) eqn:Eg;
       [| destruct (F.ltb (F.fabsf (F.sub al gl)) AccCalibrator.ERROR) eqn:El;
          cbn [andb];
          [ destruct (F.ltb (F.sub F.one AccCalibrator.ERROR) _) eqn:Ed |]]];
    cbn [fst snd AccCalibrator.g AccCalibrator.base];
    (split; [reflexivity | split; [reflexivity | split; [| split]]]);
    try (intros [H|H]; (discriminate H || reflexivity));
    try (left; reflexivity); try (right; reflexivity);
    (split;
      [ intros H; try discriminate H; repeat split; reflexivity
      | intros (H1 & H2 & H3 & H4);
        try discriminate H1; try discriminate H2;
        try discriminate H3; try discriminate H4; reflexivity ]).
Qed.

(** C1 fails as stated.  Take as the accumulator anything that can be
    read off the members of the calibrator other than [g], that is off
    its base-class part, and as folding any operation that changes the
    accumulator of a new calibrator.  Then it is not true that every
    trusted push folds the smoothed estimate into the accumulator and
    every other push leaves the accumulator as it is: the first sample
    (0, 0, 0.01) given to a new calibrator is trusted, and the base-class
    part after the push is the one before it. *)
Lemma AccCalibrator_push_folds_nothing :
  ~ (exists (A : Type) (accumulator : Calibrator.t -> A)
            (fold : A -> Vector.t -> A),
       (forall v : Vector.t,
          fold (accumulator Calibrator.new) v <> accumulator Calibrator.new) /\
       forall (c : AccCalibrator.t) (val : Vector.t),
         accumulator (AccCalibrator.base (fst (AccCalibrator.push c val))) =
         if TrustSpec.trusted c val
         then fold (accumulator (AccCalibrator.base c)) (TrustSpec.smoothed c val)
         else accumulator (AccCalibrator.base c)).
Proof.
  intros (A & accumulator & fold & Hfold & H).
  specialize (H AccCalibrator.new v00c).
  assert (Ht : TrustSpec.trusted AccCalibrator.new v00c = true)
    by (vm_compute; reflexivity).
  assert (Hb : AccCalibrator.base (fst (AccCalibrator.push AccCalibrator.new v00c))
               = Calibrator.new) by (vm_compute; reflexivity).
  rewrite Ht, Hb in H.
  change (AccCalibrator.base AccCalibrator.new) with Calibrator.new in H.
  symmetry in H. exact (Hfold _ H).
Qed.

(** Three first samples given to a new calibrator: (0, 0, 0) has length
    zero and stops the push; (0, 0, 1) is five times longer than the
    estimate (0, 0, 0.2) it leaves and is not trusted; (0, 0, 0.01) leaves
    the estimate (0, 0, 0.002), within 0.05 of it in length and along it,
    and the estimate is handed to [Calibrator::push]. *)
Lemma AccCalibrator_push_trust_witness :
  snd (AccCalibrator.push AccCalibrator.new v000) = [] /\
  snd (AccCalibrator.push AccCalibrator.new v001) = [] /\
  snd (AccCalibrator.push AccCalibrator.new v00c) =
    [Vector.mk F.zero F.zero (F.mul (Vector.z v00c) (F.sub F.one F.lit_0_8))].
Proof.
  split; [| split].
  - apply (AccCalibrator_push_trust AccCalibrator.new v000).
    left. vm_compute. reflexivity.
  - destruct (AccCalibrator_push_trust AccCalibrator.new v001)
      as (_ & _ & _ & H & [E|E]); [| exact E].
    apply H in E. destruct E as (_ & _ & E & _).
    vm_compute in E. discriminate E.
  - destruct (AccCalibrator_push_trust AccCalibrator.new v00c)
      as (_ & _ & _ & H & _).
    apply (proj2 H). vm_compute. repeat split.
Defined.

(** ** C5, C7, C8, C9: the engine *)

(** C5. [start] on a started engine returns -1 and changes nothing; on an
    engine that is not started it returns 0 and sets [started].  [stop]
    on an engine that is not started returns -1 and changes nothing; on
    a started one it returns 0 and clears [started].  Apart from
    [started] no member changes in any of the four cases. *)
Theorem start_stop_codes (s : t) (path : string) :
  (started s = true -> start s path = (s, -1)) /\
  (started s = false ->
     start s path = (set_started s true, 0) /\
     started (fst (start s path)) = true) /\
  (started s = false -> stop s = (s, -1)) /\
  (started s = true ->
     stop s = (set_started s false, 0) /\
     started (fst (stop s)) = false).
Proof.
  unfold start, stop.
  split; [| split; [| split]]; intros Hs; rewrite Hs; auto.
Qed.

(** A new engine is not started: it starts with code 0, and stopping it
    instead is refused with code -1. *)
Lemma start_stop_codes_witness :
  start (new false) EmptyString = (set_started (new false) true, 0) /\
  stop (new false) = (new false, -1).
Proof.
  destruct (start_stop_codes (new false) EmptyString) as (_ & H1 & H2 & _).
  split; [exact (proj1 (H1 eq_refl)) | exact (H2 eq_refl)].
Defined.

(** C7. [recalibrate] replaces the accelerometer calibrator by its
    [reset] and leaves every other member as it is, the magnetometer
    calibrator among them. *)
Theorem recalibrate_accelerometer_only (s : t) :
  accCalibrator (recalibrate s) = AccCalibrator.reset (accCalibrator s) /\
  magCalibrator (recalibrate s) = magCalibrator s /\
  accAverage (recalibrate s) = accAverage s /\
  magAverage (recalibrate s) = magAverage s /\
  accVal (recalibrate s) = accVal s /\
  magVal (recalibrate s) = magVal s /\
  oriVal (recalibrate s) = oriVal s /\
  oriCalculated (recalibrate s) = oriCalculated s /\
  started (recalibrate s) = started s /\
  fd (recalibrate s) = fd s.
Proof. repeat split. Qed.

(** C8. Two calls of [pushMagnetic] on the same engine with the same
    (x, y, z) and any two values of [status] and [period] return the same
    code and leave the same engine, whose magnetic vector is the raw
    sample; so any sequence of calls that follows ends in the same engine
    and returns the same results in both runs. *)
Theorem pushMagnetic_status_period_unused
  (s : t) (x y z status1 period1 status2 period2 : Z) (cs : list call) :
  pushMagnetic s x y z status1 period1 = pushMagnetic s x y z status2 period2 /\
  getMagnetic (fst (pushMagnetic s x y z status1 period1)) =
    Vector.mk (F.of_int x) (F.of_int y) (F.of_int z) /\
  run s (PushMagnetic x y z status1 period1 :: cs) =
    run s (PushMagnetic x y z status2 period2 :: cs).
Proof. repeat split. Qed.

(** C9. After any sequence of calls on a new engine
    [getCalibrationGoodness] returns 0, and it changes nothing. *)
Theorem getCalibrationGoodness_zero (indeterminate : bool) (cs : list call) :
  let s := fst (run (new indeterminate) cs) in
  getCalibrationGoodness s = 0 /\
  exec s GetCalibrationGoodness = (s, RetInt 0).
Proof. split; reflexivity. Qed.

(** ** getOrientation and the cached orientation *)

Lemma run_cons (s : t) (c : call) (cs : list call) :
  run s (c :: cs) =
  (fst (run (fst (exec s c)) cs), snd (exec s c) :: snd (run (fst (exec s c)) cs)).
Proof.
  simpl. destruct (exec s c) as [s1 r]. simpl.
  destruct (run s1 cs) as [s2 rs]. reflexivity.
Qed.

(** No call writes the cached orientation. *)
Lemma exec_oriVal (s : t) (c : call) : oriVal (fst (exec s c)) = oriVal s.
Proof.
  destruct c; simpl; try reflexivity.
  - unfold start. destruct (started s); reflexivity.
  - unfold stop. destruct (started s); reflexivity.
  - unfold getOrientation. destruct (oriCalculated s); reflexivity.
Qed.

Lemma run_oriVal (cs : list call) :
  forall s : t, oriVal (fst (run s cs)) = oriVal s.
Proof.
  induction cs as [|c cs IH]; intros s.
  - reflexivity.
  - rewrite run_cons. simpl fst. rewrite IH. apply exec_oriVal.
Qed.

(** After any sequence of calls on a new engine [getOrientation]
    returns the cached vector, which is still the (0, 0, 0) of
    construction, and its only effect is to set [oriCalculated]; a push
    clears [oriCalculated] and leaves the cached vector as it is. *)
Theorem getOrientation_cached_zero
  (indeterminate : bool) (cs : list call) (x y z sensitivity status period : Z) :
  let s := fst (run (new indeterminate) cs) in
  snd (getOrientation s) = oriVal s /\
  snd (getOrientation s) = Vector.mk F.zero F.zero F.zero /\
  fst (getOrientation s) = set_oriCalculated s true /\
  oriCalculated (fst (pushAcceleration s x y z sensitivity)) = false /\
  oriCalculated (fst (pushMagnetic s x y z status period)) = false /\
  oriVal (fst (pushAcceleration s x y z sensitivity)) = oriVal s /\
  oriVal (fst (pushMagnetic s x y z status period)) = oriVal s.
Proof.
  cbv zeta.
  set (s := fst (run (new indeterminate) cs)).
  assert (Ho : oriVal s = Vector.mk F.zero F.zero F.zero).
  { unfold s. rewrite run_oriVal. reflexivity. }
  assert (Hc : snd (getOrientation s) = oriVal s).
  { unfold getOrientation. simpl. destruct (oriCalculated s); reflexivity. }
  repeat split; try reflexivity.
  - exact Hc.
  - rewrite Hc. exact Ho.
  - unfold getOrientation. destruct s as [a b c d e f g h i j].
    simpl. destruct h; reflexivity.
Qed.

(* ================================================================== *)
(** * Further properties of the code *)

(** ** binary32 facts *)

Lemma round_aux_unsigned (m e : Z) (l : location) :
  F.is_nan_or_unsigned (binary_round_aux F.prec F.emax false m e l) = true.
Proof.
  unfold binary_round_aux.
  destruct (shr_fexp F.prec F.emax m e l) as [mrs1 e1].
  destruct (shr_fexp F.prec F.emax _ e1 loc_Exact) as [mrs2 e2].
  destruct (shr_m mrs2); [reflexivity | | reflexivity].
  destruct (Z.leb e2 (Z.sub F.emax F.prec)); reflexivity.
Qed.

Lemma round_unsigned (m : positive) (e : Z) :
  F.is_nan_or_unsigned (binary_round F.prec F.emax false m e) = true.
Proof.
  unfold binary_round.
  destruct (shl_align m e _) as [mz ez]. apply round_aux_unsigned.
Qed.

Lemma F_mul_comm (a b : F.float) : F.mul a b = F.mul b a.
Proof.
  unfold F.mul, SFmul.
  destruct a as [sa|sa| |sa ma ea], b as [sb|sb| |sb mb eb];
    try reflexivity; rewrite (xorb_comm sa sb); try reflexivity.
  rewrite (Pos.mul_comm ma mb), (Z.add_comm ea eb). reflexivity.
Qed.

Lemma F_add_comm (a b : F.float) : F.add a b = F.add b a.
Proof.
  unfold F.add, SFadd.
  destruct a as [sa|sa| |sa ma ea], b as [sb|sb| |sb mb eb];
    try reflexivity; try (destruct sa, sb; reflexivity).
  cbv zeta. rewrite (Z.min_comm ea eb).
  rewrite (Z.add_comm (cond_Zopp sa _)). reflexivity.
Qed.

Lemma F_mul_self_unsigned (a : F.float) :
  F.is_nan_or_unsigned (F.mul a a) = true.
Proof.
  unfold F.mul, SFmul.
  destruct a as [s|s| |s m e]; try reflexivity; try (destruct s; reflexivity).
  rewrite xorb_nilpotent. apply round_aux_unsigned.
Qed.

Lemma F_add_unsigned (a b : F.float) :
  F.is_nan_or_unsigned a = true -> F.is_nan_or_unsigned b = true ->
  F.is_nan_or_unsigned (F.add a b) = true.
Proof.
  unfold F.add, SFadd.
  destruct a as [sa|sa| |sa ma ea], b as [sb|sb| |sb mb eb];
    simpl F.is_nan_or_unsigned; intros Ha Hb; try reflexivity;
    try (destruct sa; try discriminate Ha);
    try (destruct sb; try discriminate Hb); try reflexivity.
  cbv zeta. cbn [cond_Zopp Z.add binary_normalize].
  apply round_unsigned.
Qed.

Lemma F_sqrtf_unsigned (a : F.float) :
  F.is_nan_or_unsigned a = true -> F.is_nan_or_unsigned (F.sqrtf a) = true.
Proof.
  unfold F.sqrtf, SFsqrt.
  destruct a as [s|s| |s m e]; simpl F.is_nan_or_unsigned; intros Ha;
    try reflexivity; try (destruct s; try discriminate Ha; reflexivity).
  destruct s; [discriminate Ha|].
  destruct (SFsqrt_core_binary F.prec F.emax (Zpos m) e) as [[mz ez] lz].
  apply round_aux_unsigned.
Qed.

(** The sum of the three squares that [length] and a [dot] of a vector
    with itself compute. *)
Lemma sum_squares_unsigned (a b c : F.float) :
  F.is_nan_or_unsigned
    (F.add (F.add (F.mul a a) (F.mul b b)) (F.mul c c)) = true.
Proof.
  repeat apply F_add_unsigned; apply F_mul_self_unsigned.
Qed.

Lemma F_eqb_zero (a : F.float) :
  F.eqb a F.zero = true <-> exists s, a = S754_zero s.
Proof.
  unfold F.eqb, SFeqb, F.zero.
  destruct a as [s|s| |s m e]; simpl.
  - split; [intros _; exists s; reflexivity | reflexivity].
  - split; [destruct s; discriminate | intros [s' H]; discriminate H].
  - split; [discriminate | intros [s' H]; discriminate H].
  - split; [destruct s; discriminate | intros [s' H]; discriminate H].
Qed.

(** ** X1, X2: Vector *)

(** X1. [dot] is symmetric and [add] and the elementwise [multiply] are
    commutative: the two results are the same value, signed zeros and
    infinities included, and one is a NaN exactly when the other is (the
    sign and payload of a NaN are not part of the model). *)
Theorem Vector_commutative (v o : Vector.t) :
  Vector.dot v o = Vector.dot o v /\
  Vector.add v o = Vector.add o v /\
  Vector.multiply v o = Vector.multiply o v /\
  Vector.multiply_static v o = Vector.multiply_static o v.
Proof.
  unfold Vector.multiply_static, Vector.dot, Vector.add, Vector.multiply.
  repeat split.
  - rewrite (F_mul_comm (Vector.x v)), (F_mul_comm (Vector.y v)),
      (F_mul_comm (Vector.z v)). reflexivity.
  - rewrite (F_add_comm (Vector.x v)), (F_add_comm (Vector.y v)),
      (F_add_comm (Vector.z v)). reflexivity.
  - rewrite (F_mul_comm (Vector.x v)), (F_mul_comm (Vector.y v)),
      (F_mul_comm (Vector.z v)). reflexivity.
  - rewrite (F_mul_comm (Vector.x v)), (F_mul_comm (Vector.y v)),
      (F_mul_comm (Vector.z v)). reflexivity.
Qed.

(** X2. [length] never returns a negative value or a negative zero: its
    result is a NaN or has a clear sign bit.  So the test [length == 0]
    of the callers holds exactly when the result is +0.0f, and
    [length(v)] is [sqrtf(v.dot(v))]. *)
Theorem Vector_length_unsigned (v : Vector.t) :
  F.is_nan_or_unsigned (Vector.length v) = true /\
  (F.eqb (Vector.length v) (F.of_int 0) = true <-> Vector.length v = F.zero) /\
  Vector.length v = F.sqrtf (Vector.dot v v).
Proof.
  assert (U : F.is_nan_or_unsigned (Vector.length v) = true).
  { unfold Vector.length. apply F_sqrtf_unsigned, sum_squares_unsigned. }
  split; [exact U | split; [| reflexivity]].
  change (F.of_int 0) with F.zero. rewrite F_eqb_zero.
  split.
  - intros [s H]. rewrite H in U |- *. destruct s; [discriminate U | reflexivity].
  - intros H. exists false. exact H.
Qed.

(** ** X3: infinities and NaNs in the gravity estimate *)

Lemma nonfinite_mul_l (a b : F.float) :
  F.is_nonfinite a = true -> F.is_nonfinite (F.mul a b) = true.
Proof.
  unfold F.mul, SFmul.
  destruct a as [sa|sa| |sa ma ea]; simpl; intros H; try discriminate H;
    destruct b; reflexivity.
Qed.

Lemma nonfinite_mul_r (a b : F.float) :
  F.is_nonfinite b = true -> F.is_nonfinite (F.mul a b) = true.
Proof. rewrite F_mul_comm. apply nonfinite_mul_l. Qed.

Lemma nonfinite_add_l (a b : F.float) :
  F.is_nonfinite a = true -> F.is_nonfinite (F.add a b) = true.
Proof.
  unfold F.add, SFadd.
  destruct a as [sa|sa| |sa ma ea]; simpl; intros H; try discriminate H;
    destruct b as [sb|sb| |sb mb eb]; try reflexivity.
  destruct sa, sb; reflexivity.
Qed.

Lemma nonfinite_add_r (a b : F.float) :
  F.is_nonfinite b = true -> F.is_nonfinite (F.add a b) = true.
Proof. rewrite F_add_comm. apply nonfinite_add_l. Qed.

Lemma nonfinite_sqrtf (a : F.float) :
  F.is_nonfinite a = true -> F.is_nan_or_unsigned a = true ->
  F.is_nonfinite (F.sqrtf a) = true.
Proof.
  destruct a as [s|s| |s m e]; simpl; intros H U; try discriminate H.
  - destruct s; [discriminate U | reflexivity].
  - reflexivity.
Qed.

(** The length of a vector with an infinite or NaN component is
    +infinity or a NaN. *)
Lemma nonfinite_length (v : Vector.t) :
  F.is_nonfinite (Vector.x v) || F.is_nonfinite (Vector.y v)
    || F.is_nonfinite (Vector.z v) = true ->
  F.is_nonfinite (Vector.length v) = true.
Proof.
  intros H. unfold Vector.length.
  apply nonfinite_sqrtf; [| apply sum_squares_unsigned].
  apply orb_true_iff in H. destruct H as [H | H].
  - apply nonfinite_add_l.
    apply orb_true_iff in H. destruct H as [H | H].
    + apply nonfinite_add_l, nonfinite_mul_l, H.
    + apply nonfinite_add_r, nonfinite_mul_l, H.
  - apply nonfinite_add_r, nonfinite_mul_l, H.
Qed.

(** No length is within [ERROR] of a length that is +infinity or NaN. *)
Lemma nonfinite_length_not_close (al gl : F.float) :
  F.is_nonfinite gl = true -> F.is_nan_or_unsigned gl = true ->
  F.eqb gl F.zero = false /\
  F.ltb (F.fabsf (F.sub al gl)) AccCalibrator.ERROR = false.
Proof.
  destruct gl as [s|s| |s m e]; simpl; intros H U; try discriminate H.
  - destruct s; [discriminate U|].
    split; [reflexivity|].
    destruct al as [sa|sa| |sa ma ea]; try reflexivity.
    destruct sa; reflexivity.
  - split; [reflexivity|]. destruct al; reflexivity.
Qed.

(** The calibrator after [push], in every branch. *)
Lemma AccCalibrator_push_fst (c : AccCalibrator.t) (val : Vector.t) :
  fst (AccCalibrator.push c val) =
  AccCalibrator.mk (AccCalibrator.base c)
    (Vector.add (Vector.multiply_f (AccCalibrator.g c) AccCalibrator.GRAVITY_SMOOTH)
       (Vector.multiply_f val (F.sub F.one AccCalibrator.GRAVITY_SMOOTH))).
Proof.
  unfold AccCalibrator.push. cbv zeta.
  destruct (_ || _); [reflexivity|].
  destruct (_ && _); reflexivity.
Qed.

Lemma smoothed_nonfinite (gx vx : F.float) :
  F.is_nonfinite gx = true ->
  F.is_nonfinite
    (F.add (F.mul gx AccCalibrator.GRAVITY_SMOOTH)
           (F.mul vx (F.sub F.one AccCalibrator.GRAVITY_SMOOTH))) = true.
Proof. intros H. apply nonfinite_add_l, nonfinite_mul_l, H. Qed.

(** X3. Once a component of the gravity estimate [g] is an infinity or a
    NaN, [push] keeps that component infinite or NaN whatever the sample,
    and never calls [Calibrator::push]: only [reset] ends this. *)
Theorem nonfinite_gravity_never_trusted (c : AccCalibrator.t) (val : Vector.t) :
  F.is_nonfinite (Vector.x (AccCalibrator.g c))
    || F.is_nonfinite (Vector.y (AccCalibrator.g c))
    || F.is_nonfinite (Vector.z (AccCalibrator.g c)) = true ->
  let c' := fst (AccCalibrator.push c val) in
  (F.is_nonfinite (Vector.x (AccCalibrator.g c)) = true ->
   F.is_nonfinite (Vector.x (AccCalibrator.g c')) = true) /\
  (F.is_nonfinite (Vector.y (AccCalibrator.g c)) = true ->
   F.is_nonfinite (Vector.y (AccCalibrator.g c')) = true) /\
  (F.is_nonfinite (Vector.z (AccCalibrator.g c)) = true ->
   F.is_nonfinite (Vector.z (AccCalibrator.g c')) = true) /\
  snd (AccCalibrator.push c val) = [] /\
  AccCalibrator.g (AccCalibrator.reset c') = Vector.new.
Proof.
  intros H. cbv zeta. rewrite AccCalibrator_push_fst.
  cbn [AccCalibrator.g].
  split; [| split; [| split; [| split; [| reflexivity]]]];
    try (intros Hc; apply smoothed_nonfinite, Hc).
  set (g' := Vector.add
               (Vector.multiply_f (AccCalibrator.g c) AccCalibrator.GRAVITY_SMOOTH)
               (Vector.multiply_f val (F.sub F.one AccCalibrator.GRAVITY_SMOOTH))).
  assert (Hg : F.is_nonfinite (Vector.x g') || F.is_nonfinite (Vector.y g')
               || F.is_nonfinite (Vector.z g') = true).
  { apply orb_true_iff in H. destruct H as [H | H];
      [apply orb_true_iff in H; destruct H as [H | H] |].
    - apply orb_true_iff; left; apply orb_true_iff; left.
      apply smoothed_nonfinite, H.
    - apply orb_true_iff; left; apply orb_true_iff; right.
      apply smoothed_nonfinite, H.
    - apply orb_true_iff; right. apply smoothed_nonfinite, H. }
  assert (Hl : F.is_nonfinite (Vector.length g') = true)
    by (apply nonfinite_length, Hg).
  assert (Hu : F.is_nan_or_unsigned (Vector.length g') = true).
  { unfold Vector.length. apply F_sqrtf_unsigned, sum_squares_unsigned. }
  destruct (nonfinite_length_not_close (Vector.length val) _ Hl Hu) as [E0 E1].
  unfold AccCalibrator.push. cbv zeta.
  unfold Vector.multiply_static_f. cbn [AccCalibrator.g AccCalibrator.base].
  fold g'. change (F.of_int 0) with F.zero.
  rewrite E0, E1. rewrite orb_false_r. cbn [andb].
  destruct (F.eqb (Vector.length val) F.zero); reflexivity.
Qed.

(** A calibrator whose estimate is (+infinity, 0, 0), given the sample
    (0, 0, 1): nothing is handed over. *)
Lemma nonfinite_gravity_never_trusted_witness :
  snd (AccCalibrator.push acc_inf v001) = [].
Proof.
  apply (nonfinite_gravity_never_trusted acc_inf v001). reflexivity.
Defined.

(** ** X4, X5: what each call of the engine writes *)

(** The members a call leaves as they are. *)
Lemma exec_frame (s : t) (c : call) :
  let s' := fst (exec s c) in
  oriVal s' = oriVal s /\
  fd s' = fd s /\
  magCalibrator s' = magCalibrator s /\
  AccCalibrator.base (accCalibrator s') = AccCalibrator.base (accCalibrator s) /\
  (is_PushMagnetic c = false -> magVal s' = magVal s) /\
  (is_acc_call c = false ->
   accCalibrator s' = accCalibrator s /\ accVal s' = accVal s) /\
  (is_lifecycle_call c = false -> started s' = started s).
Proof.
  cbv zeta.
  destruct s as [ac aa av mc ma mv ov oc st f].
  destruct c; simpl;
    unfold start, stop, getOrientation; simpl;
    try destruct st; try destruct oc; simpl;
    try rewrite AccCalibrator_push_fst;
    repeat split; auto; try discriminate.
Qed.

(** X4. No sequence of calls, from any engine, changes the translation or
    the scale of either calibrator, the cached orientation or [fd]: no
    fit ever takes place, no orientation is ever computed and no device
    is ever opened. *)
Theorem run_keeps_correction (s : t) (cs : list call) :
  let s' := fst (run s cs) in
  Calibrator.translation (AccCalibrator.base (accCalibrator s')) =
    Calibrator.translation (AccCalibrator.base (accCalibrator s)) /\
  Calibrator.scale (AccCalibrator.base (accCalibrator s')) =
    Calibrator.scale (AccCalibrator.base (accCalibrator s)) /\
  magCalibrator s' = magCalibrator s /\
  oriVal s' = oriVal s /\
  fd s' = fd s.
Proof.
  cbv zeta. revert s.
  induction cs as [|c cs IH]; intros s.
  - repeat split.
  - rewrite run_cons. cbn [fst].
    destruct (IH (fst (exec s c))) as (I1 & I2 & I3 & I4 & I5).
    destruct (exec_frame s c) as (E1 & E2 & E3 & E4 & _).
    rewrite I1, I2, I3, I4, I5, E1, E2, E3, E4. repeat split.
Qed.

(** The magnetic vector is written by [pushMagnetic] only. *)
Lemma run_magVal (cs : list call) :
  forall s1 s2 : t,
    magVal s1 = magVal s2 ->
    magVal (fst (run s1 cs)) = magVal (fst (run s2 (filter is_PushMagnetic cs))).
Proof.
  induction cs as [|c cs IH]; intros s1 s2 H.
  - exact H.
  - rewrite run_cons. cbn [fst filter].
    destruct (is_PushMagnetic c) eqn:Ec.
    + rewrite run_cons. cbn [fst]. apply IH.
      destruct c; try discriminate Ec. reflexivity.
    + apply IH.
      destruct (exec_frame s1 c) as (_ & _ & _ & _ & E & _).
      rewrite (E Ec). exact H.
Qed.

(** The accelerometer calibrator and vector are written by
    [pushAcceleration] and [recalibrate] only. *)
Lemma run_acc (cs : list call) :
  forall s1 s2 : t,
    accCalibrator s1 = accCalibrator s2 -> accVal s1 = accVal s2 ->
    accCalibrator (fst (run s1 cs)) =
      accCalibrator (fst (run s2 (filter is_acc_call cs))) /\
    accVal (fst (run s1 cs)) = accVal (fst (run s2 (filter is_acc_call cs))).
Proof.
  induction cs as [|c cs IH]; intros s1 s2 H1 H2.
  - split; assumption.
  - rewrite run_cons. cbn [fst filter].
    destruct (is_acc_call c) eqn:Ec.
    + rewrite run_cons. cbn [fst].
      destruct c; try discriminate Ec; apply IH; simpl; rewrite ?H1; auto.
    + destruct (exec_frame s1 c) as (_ & _ & _ & _ & _ & E & _).
      destruct (E Ec) as [E1 E2].
      apply IH; [rewrite E1 | rewrite E2]; assumption.
Qed.

(** [started] is written by [start] and [stop] only. *)
Lemma run_started (cs : list call) :
  forall s1 s2 : t,
    started s1 = started s2 ->
    started (fst (run s1 cs)) =
      started (fst (run s2 (filter is_lifecycle_call cs))).
Proof.
  induction cs as [|c cs IH]; intros s1 s2 H.
  - exact H.
  - rewrite run_cons. cbn [fst filter].
    destruct (is_lifecycle_call c) eqn:Ec.
    + rewrite run_cons. cbn [fst]. apply IH.
      destruct c; try discriminate Ec; simpl; unfold start, stop;
        destruct (started s1) eqn:E1; destruct (started s2) eqn:E2;
        try discriminate H; simpl; congruence.
    + apply IH.
      destruct (exec_frame s1 c) as (_ & _ & _ & _ & _ & _ & E).
      rewrite (E Ec). exact H.
Qed.

(** X5. The three parts of the engine do not influence one another:
    the magnetic vector after a sequence of calls is the one after its
    [pushMagnetic] calls alone; the accelerometer calibrator and vector
    are those after its [pushAcceleration] and [recalibrate] calls
    alone; [started] is the one after its [start] and [stop] calls
    alone. *)
Theorem run_parts_independent (s : t) (cs : list call) :
  magVal (fst (run s cs)) = magVal (fst (run s (filter is_PushMagnetic cs))) /\
  accCalibrator (fst (run s cs)) =
    accCalibrator (fst (run s (filter is_acc_call cs))) /\
  accVal (fst (run s cs)) = accVal (fst (run s (filter is_acc_call cs))) /\
  started (fst (run s cs)) =
    started (fst (run s (filter is_lifecycle_call cs))).
Proof.
  split; [apply run_magVal; reflexivity |].
  split; [apply run_acc; reflexivity |].
  split; [apply run_acc; reflexivity |].
  apply run_started; reflexivity.
Qed.

(** ** X6: the acceleration vector *)

Lemma zero_correction_zero_or_nan (a : F.float) :
  F.is_zero_or_nan (F.mul (F.add a F.zero) F.zero) = true.
Proof. destruct a as [s|s| |s m e]; try destruct s; reflexivity. Qed.

Lemma run_accVal_zero_or_nan (cs : list call) :
  forall s : t,
    AccCalibrator.base (accCalibrator s) = Calibrator.new ->
    F.is_zero_or_nan (Vector.x (accVal s)) = true /\
    F.is_zero_or_nan (Vector.y (accVal s)) = true /\
    F.is_zero_or_nan (Vector.z (accVal s)) = true ->
    F.is_zero_or_nan (Vector.x (accVal (fst (run s cs)))) = true /\
    F.is_zero_or_nan (Vector.y (accVal (fst (run s cs)))) = true /\
    F.is_zero_or_nan (Vector.z (accVal (fst (run s cs)))) = true.
Proof.
  induction cs as [|c cs IH]; intros s Hb Hv.
  - exact Hv.
  - rewrite run_cons. cbn [fst].
    destruct (exec_frame s c) as (_ & _ & _ & Eb & _ & Ea & _).
    apply IH; [rewrite Eb; exact Hb |].
    destruct (is_acc_call c) eqn:Ec.
    + destruct c; try discriminate Ec.
      * simpl. rewrite AccCalibrator_push_fst.
        unfold AccCalibrator.fix_, Calibrator.fix_.
        cbn [AccCalibrator.base]. rewrite Hb.
        repeat split; apply zero_correction_zero_or_nan.
      * exact Hv.
    + destruct (Ea eq_refl) as [_ E]. rewrite E. exact Hv.
Qed.

(** X6. After any sequence of calls on a new engine every component of the
    corrected acceleration vector is a zero (of either sign) or a NaN:
    the scale stays (0, 0, 0), so no sample survives [fix]. *)
Theorem accVal_zero_or_nan (indeterminate : bool) (cs : list call) :
  let v := accVal (fst (run (new indeterminate) cs)) in
  F.is_zero_or_nan (Vector.x v) = true /\
  F.is_zero_or_nan (Vector.y v) = true /\
  F.is_zero_or_nan (Vector.z v) = true.
Proof.
  cbv zeta. apply run_accVal_zero_or_nan; repeat split.
Qed.

(** ** X7: a sensitivity of zero *)

Lemma run_gravity_nonfinite (cs : list call) :
  forall s : t,
    forallb (fun c => negb (is_Recalibrate c)) cs = true ->
    F.is_nonfinite (Vector.x (AccCalibrator.g (accCalibrator s))) = true /\
    F.is_nonfinite (Vector.y (AccCalibrator.g (accCalibrator s))) = true /\
    F.is_nonfinite (Vector.z (AccCalibrator.g (accCalibrator s))) = true ->
    let s' := fst (run s cs) in
    F.is_nonfinite (Vector.x (AccCalibrator.g (accCalibrator s'))) = true /\
    F.is_nonfinite (Vector.y (AccCalibrator.g (accCalibrator s'))) = true /\
    F.is_nonfinite (Vector.z (AccCalibrator.g (accCalibrator s'))) = true.
Proof.
  cbv zeta.
  induction cs as [|c cs IH]; intros s Hcs Hg.
  - exact Hg.
  - cbn [forallb] in Hcs. apply andb_true_iff in Hcs. destruct Hcs as [Hc Hcs].
    rewrite run_cons. cbn [fst]. apply IH; [exact Hcs |].
    destruct (exec_frame s c) as (_ & _ & _ & _ & _ & Ea & _).
    destruct (is_acc_call c) eqn:Ec.
    + destruct c; try discriminate Ec; try discriminate Hc.
      simpl. rewrite AccCalibrator_push_fst. cbn [AccCalibrator.g].
      destruct Hg as (Hx & Hy & Hz).
      repeat split; apply smoothed_nonfinite; assumption.
    + destruct (Ea eq_refl) as [E _]. rewrite E. exact Hg.
Qed.

(** X7. [pushAcceleration] with [sensitivity = 0] divides 720 by zero: every
    component of the acceleration vector it leaves is an infinity or a
    NaN, and so is every component of the gravity estimate, which stays
    so through every later sequence of calls without [recalibrate]. *)
Theorem sensitivity_zero_poisons (s : t) (x y z : Z) (cs : list call) :
  forallb (fun c => negb (is_Recalibrate c)) cs = true ->
  let s1 := fst (pushAcceleration s x y z 0) in
  let s' := fst (run s (PushAcceleration x y z 0 :: cs)) in
  (F.is_nonfinite (Vector.x (accVal s1)) = true /\
   F.is_nonfinite (Vector.y (accVal s1)) = true /\
   F.is_nonfinite (Vector.z (accVal s1)) = true) /\
  (F.is_nonfinite (Vector.x (AccCalibrator.g (accCalibrator s'))) = true /\
   F.is_nonfinite (Vector.y (AccCalibrator.g (accCalibrator s'))) = true /\
   F.is_nonfinite (Vector.z (AccCalibrator.g (accCalibrator s'))) = true).
Proof.
  intros Hcs. cbv zeta.
  assert (Hv : forall a, F.is_nonfinite (F.mul a (F.div F.lit_720 (F.of_int 0))) = true).
  { intros a. apply nonfinite_mul_r. reflexivity. }
  split.
  - simpl. rewrite AccCalibrator_push_fst.
    unfold AccCalibrator.fix_, Calibrator.fix_. cbn [AccCalibrator.base].
    repeat split; apply nonfinite_mul_l, nonfinite_add_l, Hv.
  - rewrite run_cons. cbn [fst].
    apply (run_gravity_nonfinite cs _ Hcs).
    simpl. rewrite AccCalibrator_push_fst. cbn [AccCalibrator.g].
    repeat split; apply nonfinite_add_r, nonfinite_mul_l, Hv.
Qed.

(** A new engine given the sample (1, 2, 3) at sensitivity 0, then a
    sound sample and a read of the orientation. *)
Lemma sensitivity_zero_poisons_witness :
  F.is_nonfinite
    (Vector.z (AccCalibrator.g (accCalibrator
       (fst (run (new false)
               [PushAcceleration 1 2 3 0; PushAcceleration 0 0 1 720;
                GetOrientation]))))) = true.
Proof.
  apply (sensitivity_zero_poisons (new false) 1 2 3
           [PushAcceleration 0 0 1 720; GetOrientation]).
  reflexivity.
Defined.

(** ** X8 to X11: the SEMC_API wrappers *)

Lemma AKM_run_cons (self : AKM.self_t) (c : AKM.call) (cs : list AKM.call) :
  AKM.run self (c :: cs) =
  (fst (AKM.run (fst (AKM.exec self c)) cs),
   snd (AKM.exec self c) :: snd (AKM.run (fst (AKM.exec self c)) cs)).
Proof.
  simpl. destruct (AKM.exec self c) as [s1 r]. simpl.
  destruct (AKM.run s1 cs) as [s2 rs]. reflexivity.
Qed.

(** X8. While [self] is null, that is before the first [AKM_Init] and after
    each [AKM_Release], every sequence of calls without [AKM_Init] leaves
    it null, stores nothing through [data], and returns -1 from every
    call with an [int] result and 0 from [AKM_GetCalibrationGoodness]. *)
Theorem AKM_null_self_fails (cs : list AKM.call) :
  forallb (fun c => negb (AKM.is_Init c)) cs = true ->
  AKM.run AKM.self_init cs = (None, map AKM.null_result cs).
Proof.
  unfold AKM.self_init.
  induction cs as [|c cs IH]; intros H.
  - reflexivity.
  - cbn [forallb] in H. apply andb_true_iff in H. destruct H as [Hc H].
    rewrite AKM_run_cons.
    assert (E : AKM.exec None c = (None, AKM.null_result c))
      by (destruct c; try discriminate Hc; reflexivity).
    rewrite E. cbn [fst snd map]. rewrite (IH H). reflexivity.
Qed.

(** With no engine, starting, saving a magnetic sample, reading it back
    and releasing all fail. *)
Lemma AKM_null_self_fails_witness :
  AKM.run None
    [AKM.Start EmptyString; AKM.SaveMag 1 2 3 0 0; AKM.GetMagneticValues;
     AKM.Release]
  = (None, [AKM.RetInt (-1); AKM.RetInt (-1); AKM.RetData (-1) None;
            AKM.RetVoid]).
Proof.
  apply (AKM_null_self_fails
           [AKM.Start EmptyString; AKM.SaveMag 1 2 3 0 0;
            AKM.GetMagneticValues; AKM.Release]).
  reflexivity.
Defined.

(** X9. [AKM_Init] and [AKM_Release] forget the engine that [self] held:
    what follows an [AKM_Init] does not depend on the calls before it,
    so an engine that was started and never stopped is replaced by one
    that is not started, and [AKM_Start] after [AKM_Init] returns 0;
    what follows an [AKM_Release] is what follows a null [self], so
    [AKM_Release] twice is the same as once. *)
Theorem AKM_Init_Release_forget
  (self : AKM.self_t) (indeterminate : bool) (path : string)
  (cs : list AKM.call) :
  AKM.run self (AKM.Init indeterminate :: cs) =
    AKM.run None (AKM.Init indeterminate :: cs) /\
  snd (AKM.AKM_Init self indeterminate) = 0 /\
  snd (AKM.AKM_Start (fst (AKM.AKM_Init self indeterminate)) path) = 0 /\
  fst (AKM.run self (AKM.Release :: cs)) = fst (AKM.run None cs) /\
  snd (AKM.run self (AKM.Release :: cs)) =
    AKM.RetVoid :: snd (AKM.run None cs) /\
  AKM.AKM_Release (AKM.AKM_Release self) = AKM.AKM_Release self.
Proof.
  repeat split; try reflexivity.
  - rewrite AKM_run_cons. reflexivity.
  - rewrite AKM_run_cons. reflexivity.
Qed.

(** An invariant of the wrappers: the engine that [self] holds, if any,
    has the cached orientation it was constructed with. *)
Lemma AKM_exec_oriVal (self : AKM.self_t) (c : AKM.call) :
  (forall e, self = Some e -> oriVal e = Vector.new) ->
  forall e', fst (AKM.exec self c) = Some e' -> oriVal e' = Vector.new.
Proof.
  intros Hinv e' He'.
  destruct self as [e|].
  - specialize (Hinv e eq_refl).
    destruct e as [ac aa av mc ma mv ov oc st f]. simpl in Hinv. subst ov.
    destruct c; simpl in He';
      unfold start, stop, getOrientation in He'; simpl in He';
      try destruct st; try destruct oc; simpl in He';
      try discriminate He'; injection He' as <-; reflexivity.
  - destruct c; simpl in He'; try discriminate He'.
    injection He' as <-. reflexivity.
Qed.

Lemma AKM_run_oriVal (cs : list AKM.call) :
  forall self : AKM.self_t,
    (forall e, self = Some e -> oriVal e = Vector.new) ->
    forall e', fst (AKM.run self cs) = Some e' -> oriVal e' = Vector.new.
Proof.
  induction cs as [|c cs IH]; intros self Hinv e' He'.
  - apply Hinv. exact He'.
  - rewrite AKM_run_cons in He'. cbn [fst] in He'.
    apply (IH (fst (AKM.exec self c))); [| exact He'].
    apply AKM_exec_oriVal. exact Hinv.
Qed.

(** X10. After any sequence of calls of the wrappers from a null [self],
    [AKM_GetOrientationValues] either fails with -1 and stores nothing
    (no engine) or returns 0 and stores azimuth = pitch = roll = 0. *)
Theorem AKM_orientation_always_zero (cs : list AKM.call) :
  let self := fst (AKM.run AKM.self_init cs) in
  let r := snd (AKM.exec self AKM.GetOrientationValues) in
  (self = None /\ r = AKM.RetData (-1) None) \/
  (self <> None /\ r = AKM.RetData 0 (Some (F.zero, F.zero, F.zero))).
Proof.
  cbv zeta.
  pose proof (AKM_run_oriVal cs AKM.self_init) as H.
  destruct (fst (AKM.run AKM.self_init cs)) as [e|].
  - right. split; [discriminate |].
    assert (Ho : oriVal e = Vector.new)
      by (apply H; [intros e0 E; discriminate E | reflexivity]).
    destruct e as [ac aa av mc ma mv ov oc st f]. simpl in Ho. subst ov.
    simpl. unfold getOrientation. simpl. destruct oc; reflexivity.
  - left. split; reflexivity.
Qed.

(** The magnetic vector of the engine under calls that keep it. *)
Lemma AKM_run_magVal (cs : list AKM.call) :
  forall (e : Akmtastic.t),
    forallb AKM.keeps_magnetic cs = true ->
    exists e', fst (AKM.run (Some e) cs) = Some e' /\ magVal e' = magVal e.
Proof.
  induction cs as [|c cs IH]; intros e H.
  - exists e. split; reflexivity.
  - cbn [forallb] in H. apply andb_true_iff in H. destruct H as [Hc H].
    rewrite AKM_run_cons. cbn [fst].
    assert (E : exists e1, fst (AKM.exec (Some e) c) = Some e1
                           /\ magVal e1 = magVal e).
    { destruct e as [ac aa av mc ma mv ov oc st f].
      destruct c; try discriminate Hc; simpl;
        unfold start, stop, getOrientation; simpl;
        try destruct st; try destruct oc; simpl;
        eexists; split; reflexivity. }
    destruct E as (e1 & E1 & M1). rewrite E1.
    destruct (IH e1 H) as (e' & E' & M'). exists e'.
    split; [exact E' | congruence].
Qed.

(** X11. With an engine in place, [AKM_SaveMag(x, y, z, ...)] returns 0 and,
    after any calls other than [AKM_SaveMag], [AKM_Init] and
    [AKM_Release], [AKM_GetMagneticValues] returns 0 and stores x, y and
    z, each converted to [float] and otherwise untouched. *)
Theorem AKM_magnetic_round_trip
  (e : Akmtastic.t) (x y z status period : Z) (cs : list AKM.call) :
  forallb AKM.keeps_magnetic cs = true ->
  snd (AKM.AKM_SaveMag (Some e) x y z status period) = 0 /\
  snd (AKM.exec
         (fst (AKM.run (Some e) (AKM.SaveMag x y z status period :: cs)))
         AKM.GetMagneticValues)
  = AKM.RetData 0 (Some (F.of_int x, F.of_int y, F.of_int z)).
Proof.
  intros H. split; [reflexivity |].
  rewrite AKM_run_cons. cbn [fst].
  change (fst (AKM.exec (Some e) (AKM.SaveMag x y z status period)))
    with (Some (fst (pushMagnetic e x y z status period))).
  destruct (AKM_run_magVal cs (fst (pushMagnetic e x y z status period)) H)
    as (e' & E' & M').
  rewrite E'. simpl. unfold getMagnetic. rewrite M'. reflexivity.
Qed.

(** A started engine: a sample saved, then acceleration, recalibration,
    orientation and a stop, then the magnetic values read. *)
Lemma AKM_magnetic_round_trip_witness :
  snd (AKM.exec
         (fst (AKM.run (Some (new true))
                 [AKM.SaveMag 20 0 (-40) 0 0; AKM.SaveAcc 0 0 1 720;
                  AKM.ForceReCalibration; AKM.GetOrientationValues;
                  AKM.Stop EmptyString]))
         AKM.GetMagneticValues)
  = AKM.RetData 0 (Some (F.of_int 20, F.of_int 0, F.of_int (-40))).
Proof.
  apply (AKM_magnetic_round_trip (new true) 20 0 (-40) 0 0
           [AKM.SaveAcc 0 0 1 720; AKM.ForceReCalibration;
            AKM.GetOrientationValues; AKM.Stop EmptyString]).
  reflexivity.
Defined.

(** ** X12: the conversion of a sample to [float] *)

Lemma digits2_pos_lower (p : positive) :
  2 ^ (Zpos (digits2_pos p) - 1) <= Zpos p.
Proof.
  induction p as [p IH | p IH |]; cbn [digits2_pos].
  - rewrite Pos2Z.inj_succ.
    replace (Z.succ (Zpos (digits2_pos p)) - 1)
      with (Z.succ (Zpos (digits2_pos p) - 1)) by lia.
    rewrite Z.pow_succ_r by lia. lia.
  - rewrite Pos2Z.inj_succ.
    replace (Z.succ (Zpos (digits2_pos p)) - 1)
      with (Z.succ (Zpos (digits2_pos p) - 1)) by lia.
    rewrite Z.pow_succ_r by lia. lia.
  - simpl. lia.
Qed.

Lemma digits2_pos_small (p : positive) :
  Zpos p < 2 ^ 24 -> Zpos (digits2_pos p) <= 24.
Proof.
  intros H. pose proof (digits2_pos_lower p) as L.
  destruct (Z_le_gt_dec (Zpos (digits2_pos p)) 24) as [Hle | Hgt]; [exact Hle |].
  exfalso.
  assert (2 ^ 24 <= 2 ^ (Zpos (digits2_pos p) - 1))
    by (apply Z.pow_le_mono_r; lia).
  lia.
Qed.

Lemma iter_xO_digits (p d : positive) :
  digits2_pos (Pos.iter xO p d) = (digits2_pos p + d)%positive.
Proof.
  induction d as [|d IH] using Pos.peano_ind.
  - simpl. rewrite Pos.add_1_r. reflexivity.
  - rewrite Pos.iter_succ. cbn [digits2_pos]. rewrite IH.
    rewrite Pos.add_succ_r. reflexivity.
Qed.

Lemma iter_xO_value (p d : positive) :
  Zpos (Pos.iter xO p d) = Zpos p * 2 ^ Zpos d.
Proof.
  induction d as [|d IH] using Pos.peano_ind.
  - simpl. lia.
  - rewrite Pos.iter_succ. rewrite Pos2Z.inj_xO, IH.
    rewrite Pos2Z.inj_succ, Z.pow_succ_r by lia. lia.
Qed.

(** A mantissa of 24 digits with an exponent in range is not rounded. *)
Lemma round_aux_canonical (s : bool) (m : positive) (e : Z) :
  digits2_pos m = 24%positive -> -149 <= e <= 104 ->
  binary_round_aux F.prec F.emax s (Zpos m) e loc_Exact = S754_finite s m e.
Proof.
  intros Hd He.
  assert (Hs : shr_fexp F.prec F.emax (Zpos m) e loc_Exact
               = ({| shr_m := Zpos m; shr_r := false; shr_s := false |}, e)).
  { unfold shr_fexp, Zdigits2, fexp, emin, F.prec, F.emax. rewrite Hd.
    replace (Z.max (24 + e - 24) (3 - 128 - 24) - e) with 0 by lia.
    reflexivity. }
  unfold binary_round_aux. rewrite Hs.
  cbn [shr_m loc_of_shr_record round_nearest_even]. rewrite Hs.
  cbn [shr_m].
  replace (Z.leb e (Z.sub F.emax F.prec)) with true; [reflexivity |].
  symmetry. apply Z.leb_le. unfold F.emax, F.prec. lia.
Qed.

Lemma round_small (s : bool) (p : positive) :
  Zpos p < 2 ^ 24 ->
  exists m e, binary_round F.prec F.emax s p 0 = S754_finite s m e /\
              -24 < e <= 0 /\ Zpos m = Zpos p * 2 ^ (- e).
Proof.
  intros H. pose proof (digits2_pos_small p H) as Hk.
  unfold binary_round.
  replace (fexp F.prec F.emax (Zpos (digits2_pos p) + 0))
    with (Zpos (digits2_pos p) - 24)
    by (unfold fexp, emin, F.prec, F.emax; lia).
  unfold shl_align.
  destruct (Zpos (digits2_pos p) - 24 - 0) as [|d|d] eqn:Ed; try lia.
  - exists p, 0. split; [| split; [lia | simpl; lia]].
    apply round_aux_canonical; [| lia].
    apply Pos2Z.inj. lia.
  - exists (Pos.iter xO p d), (Zpos (digits2_pos p) - 24).
    split; [| split; [lia |]].
    + apply round_aux_canonical; [| lia].
      rewrite iter_xO_digits. apply Pos2Z.inj. rewrite Pos2Z.inj_add. lia.
    + rewrite iter_xO_value. f_equal. f_equal. lia.
Qed.

Lemma F2R_scaled (s : bool) (m p : positive) (e : Z) :
  e <= 0 -> Zpos m = Zpos p * 2 ^ (- e) ->
  F.F2R (S754_finite s m e) = IZR (cond_Zopp s (Zpos p)).
Proof.
  intros He Hm. unfold F.F2R.
  assert (Hp : (IZR (Zpos m) = IZR (Zpos p) * powerRZ 2 (- e))%R).
  { rewrite Hm, mult_IZR. f_equal.
    destruct e as [|e|e]; try lia; [reflexivity |].
    cbn [Z.opp]. rewrite <- Zpower_pos_powerRZ. reflexivity. }
  assert (Hq : (powerRZ 2 (- e) * powerRZ 2 e = 1)%R).
  { rewrite <- powerRZ_add by lra. replace (- e + e) with 0 by lia. reflexivity. }
  destruct s; cbn [cond_Zopp].
  - change (Z.opp (Zpos m)) with (Zneg m). change (Z.opp (Zpos p)) with (Zneg p).
    change (Zneg m) with (- Zpos m). change (Zneg p) with (- Zpos p).
    rewrite !opp_IZR, Hp.
    rewrite Ropp_mult_distr_l_reverse, Rmult_assoc, Hq. lra.
  - rewrite Hp, Rmult_assoc, Hq. lra.
Qed.

Lemma of_int_exact (n : Z) :
  - 2 ^ 24 <= n <= 2 ^ 24 -> F.F2R (F.of_int n) = IZR n.
Proof.
  intros H.
  destruct (Z.eq_dec n (2 ^ 24)) as [-> | N1].
  { change (2 ^ 24) with 16777216.
    change (F.of_int 16777216) with (S754_finite false 8388608 1).
    unfold F.F2R. cbn [cond_Zopp].
    unfold powerRZ. simpl Pos.to_nat. simpl pow. lra. }
  destruct (Z.eq_dec n (- 2 ^ 24)) as [-> | N2].
  { change (- 2 ^ 24) with (-16777216).
    change (F.of_int (-16777216)) with (S754_finite true 8388608 1).
    unfold F.F2R. cbn [cond_Zopp Z.opp].
    unfold powerRZ. simpl Pos.to_nat. simpl pow. lra. }
  unfold F.of_int, binary_normalize.
  destruct n as [|p|p].
  - reflexivity.
  - destruct (round_small false p) as (m & e & E & He & Hm); [lia |].
    rewrite E. apply (F2R_scaled false m p e); [lia | exact Hm].
  - destruct (round_small true p) as (m & e & E & He & Hm); [lia |].
    rewrite E. apply (F2R_scaled true m p e); [lia | exact Hm].
Qed.

(** X12. When x, y and z are at most 2^24 in absolute value, the magnetic
    vector that [getMagnetic] returns after [pushMagnetic(x, y, z, ...)]
    stands for exactly (x, y, z): the conversion to [float] loses nothing
    and no calibration alters the sample.  Beyond 2^24 the conversion
    rounds: 16777217 is stored as 16777216. *)
Theorem getMagnetic_exact (s : t) (x y z status period : Z) :
  - 2 ^ 24 <= x <= 2 ^ 24 ->
  - 2 ^ 24 <= y <= 2 ^ 24 ->
  - 2 ^ 24 <= z <= 2 ^ 24 ->
  let v := getMagnetic (fst (pushMagnetic s x y z status period)) in
  F.F2R (Vector.x v) = IZR x /\
  F.F2R (Vector.y v) = IZR y /\
  F.F2R (Vector.z v) = IZR z /\
  F.of_int 16777217 = F.of_int 16777216.
Proof.
  intros Hx Hy Hz. cbv zeta.
  change (getMagnetic (fst (pushMagnetic s x y z status period)))
    with (Vector.mk (F.of_int x) (F.of_int y) (F.of_int z)).
  cbn [Vector.x Vector.y Vector.z].
  repeat split; try (apply of_int_exact; assumption).
Qed.

(** The sample (20, 0, -40). *)
Lemma getMagnetic_exact_witness :
  F.F2R (Vector.z (getMagnetic (fst (pushMagnetic (new false) 20 0 (-40) 0 0))))
  = IZR (-40).
Proof.
  apply (getMagnetic_exact (new false) 20 0 (-40) 0 0); simpl; lia.
Defined.

(* ================================================================== *)
(** * C2: getOrientation against the design document *)

Lemma zero_or_nan_F2R (f : F.float) :
  F.is_zero_or_nan f = true -> F.F2R f = 0%R.
Proof. destruct f; simpl; intros H; try discriminate H; reflexivity. Qed.

(** The corrected acceleration vector of a reachable engine has
    magnitude zero. *)
Lemma reachable_accVal_magnitude (indeterminate : bool) (cs : list call) :
  OrientationSpec.magnitude
    (OrientationSpec.of_Vector (accVal (fst (run (new indeterminate) cs))))
  = 0%R.
Proof.
  destruct (run_accVal_zero_or_nan cs (new indeterminate) eq_refl)
    as (Hx & Hy & Hz); [repeat split |].
  unfold OrientationSpec.magnitude, OrientationSpec.of_Vector.
  cbn [OrientationSpec.rx OrientationSpec.ry OrientationSpec.rz].
  rewrite (zero_or_nan_F2R _ Hx), (zero_or_nan_F2R _ Hy), (zero_or_nan_F2R _ Hz).
  replace (0 * 0 + 0 * 0 + 0 * 0)%R with 0%R by lra.
  apply sqrt_0.
Qed.


